(** * redis/option/client.go: translation of [option.Client] to [redis.Options]

    The Go package [option] declares the struct [Client], the interface
    [Limiter] and one method, [Client.ParseToRedisOptions], which allocates a
    [redis.Options] and fills it from the receiver.  This file embeds the
    three of them and proves what the method does field by field.

    Go values are modelled as follows.
    - [int] and [time.Duration] (an [int64] counting nanoseconds) are [Z]; the
      method only copies them, so no arithmetic and no wrap-around occurs.
    - [string] is [string], [bool] is [bool].
    - a pointer is [None] for nil or [Some l] for the address [l]; a func
      value is the same (nil or the address of its closure); an interface
      value is [None] for the nil interface or a dynamic type together with
      the address of the data it holds.  Two references are the same
      reference exactly when these values are equal.
    - [&redis.Options{...}] allocates: the method takes the store of
      [redis.Options] objects and returns the new pointer with the extended
      store. *)

From Stdlib Require Import ZArith String.
From stdpp Require Import base option gmap strings.

Local Open Scope Z_scope.

(** ** Go values *)

Module go.

Definition loc : Type := positive.

(** [*T]: nil or an address. *)
Definition pointer : Type := option loc.

(** A func value: nil or the address of a closure. *)
Definition func : Type := option loc.

(** A non-nil interface value: the dynamic type and the data it refers to. *)
Record iface : Type := Iface { dyn_type : string; data : loc }.

(** An interface value: the nil interface or a non-nil one. *)
Definition interface : Type := option iface.

End go.

Module time.

Definition Duration : Type := Z.

Definition Nanosecond : Duration := 1.
Definition Microsecond : Duration := 1000 * Nanosecond.
Definition Millisecond : Duration := 1000 * Microsecond.
Definition Second : Duration := 1000 * Millisecond.

End time.

(** ** [redis.Options]

    The struct is declared by github.com/redis/go-redis/v9, which is imported
    by client.go.  The record has the fields that the composite literal of
    [ParseToRedisOptions] names, with the types of the expressions assigned to
    them; a field of the library's struct that the literal does not name
    keeps its zero value and is not represented. *)

Module redis.

Record Options : Type := mkOptions {
  Network : string;
  Addr : string;
  ClientName : string;
  Dialer : go.func;
  OnConnect : go.func;
  Protocol : Z;
  Username : string;
  Password : string;
  CredentialsProvider : go.func;
  DB : Z;
  MaxRetries : Z;
  MinRetryBackoff : time.Duration;
  MaxRetryBackoff : time.Duration;
  DialTimeout : time.Duration;
  ReadTimeout : time.Duration;
  WriteTimeout : time.Duration;
  ContextTimeoutEnabled : bool;
  PoolFIFO : bool;
  PoolSize : Z;
  PoolTimeout : time.Duration;
  MinIdleConns : Z;
  MaxIdleConns : Z;
  MaxActiveConns : Z;
  ConnMaxIdleTime : time.Duration;
  ConnMaxLifetime : time.Duration;
  TLSConfig : go.pointer;
  Limiter : go.interface;
  DisableIndentity : bool
}.

(** The zero value [redis.Options{}]. *)
Definition zero : Options :=
  mkOptions EmptyString EmptyString EmptyString None None 0
            EmptyString EmptyString None 0 0 0 0 0 0 0 false false 0 0 0
            0 0 0 0 None None false.

End redis.

(** The store of allocated [redis.Options] objects. *)
Abbreviation heap := (gmap go.loc redis.Options).

(** [&redis.Options{...}]: a fresh address, never nil, holding the value. *)
Definition new_Options (o : redis.Options) (h : heap) : go.pointer * heap :=
  let l := fresh (dom h) in (Some l, <[l := o]> h).

(** [*p]; [None] is the nil-pointer dereference (or a dangling address). *)
Definition deref (h : heap) (p : go.pointer) : option redis.Options :=
  l ← p; h !! l.

(** ** Package [option] *)

Module option.

(** [type Limiter interface { Allow() error; ReportResult(result error) }]:
    a value of the interface type (the field [Limiter] of [Client] takes
    the name).  The methods are never called by this package, so only the
    reference is modelled. *)
Definition Limiter_value : Type := go.interface.

(** [type Client struct], fields in the order of declaration. *)
Record Client : Type := mkClient {
  Network : string;
  Addr : string;
  ClientName : string;
  Dialer : go.func;
  OnConnect : go.func;
  Protocol : Z;
  Username : string;
  Password : string;
  CredentialsProvider : go.func;
  DB : Z;
  MaxRetries : Z;
  MinRetryBackoff : time.Duration;
  MaxRetryBackoff : time.Duration;
  DialTimeout : time.Duration;
  ReadTimeout : time.Duration;
  WriteTimeout : time.Duration;
  ContextTimeoutEnabled : bool;
  PoolFIFO : bool;
  PoolSize : Z;
  PoolTimeout : time.Duration;
  MinIdleConns : Z;
  MaxIdleConns : Z;
  MaxActiveConns : Z;
  ConnMaxIdleTime : time.Duration;
  ConnMaxLifetime : time.Duration;
  TLSConfig : go.pointer;
  Limiter : Limiter_value;
  readOnly : bool;
  DisableIndentity : bool
}.

(** The zero value [Client{}]. *)
Definition zero : Client :=
  mkClient EmptyString EmptyString EmptyString None None 0
           EmptyString EmptyString None 0 0 0 0 0 0 0 false false 0 0 0
           0 0 0 0 None None false false.

(** The composite literal of [ParseToRedisOptions], line for line. *)
Definition Options_literal (c : Client) : redis.Options :=
  {| redis.Network := c.(Network);
     redis.Addr := c.(Addr);
     redis.ClientName := c.(ClientName);
     redis.Dialer := c.(Dialer);
     redis.OnConnect := c.(OnConnect);
     redis.Protocol := c.(Protocol);
     redis.Username := c.(Username);
     redis.Password := c.(Password);
     redis.CredentialsProvider := c.(CredentialsProvider);
     redis.DB := c.(MaxIdleConns);
     redis.MaxRetries := c.(MaxRetries);
     redis.MinRetryBackoff := c.(MinRetryBackoff);
     redis.MaxRetryBackoff := c.(MaxRetryBackoff);
     redis.DialTimeout := c.(DialTimeout);
     redis.ReadTimeout := c.(ReadTimeout);
     redis.WriteTimeout := c.(WriteTimeout);
     redis.ContextTimeoutEnabled := c.(ContextTimeoutEnabled);
     redis.PoolFIFO := c.(PoolFIFO);
     redis.PoolSize := c.(PoolSize);
     redis.PoolTimeout := c.(PoolTimeout);
     redis.MinIdleConns := c.(MinIdleConns);
     redis.MaxIdleConns := c.(MaxActiveConns);
     redis.MaxActiveConns := c.(MaxActiveConns);
     redis.ConnMaxIdleTime := c.(ConnMaxIdleTime);
     redis.ConnMaxLifetime := c.(ConnMaxLifetime);
     redis.TLSConfig := c.(TLSConfig);
     redis.Limiter := c.(Limiter);
     redis.DisableIndentity := c.(DisableIndentity) |}.

(** [func (c Client) ParseToRedisOptions() *redis.Options] *)
Definition ParseToRedisOptions (c : Client) (h : heap) : go.pointer * heap :=
  new_Options (Options_literal c) h.

End option.

(** The value behind the pointer that a call returns, read in the store the
    call leaves. *)
Definition returned (c : option.Client) (h : heap) : option redis.Options :=
  let '(p, h') := option.ParseToRedisOptions c h in deref h' p.

(** ** Concrete configurations *)

(** [Client{DB: 1}] *)
Definition client_DB1 : option.Client :=
  {| option.Network := EmptyString; option.Addr := EmptyString; option.ClientName := EmptyString;
     option.Dialer := None; option.OnConnect := None; option.Protocol := 0;
     option.Username := EmptyString; option.Password := EmptyString;
     option.CredentialsProvider := None; option.DB := 1;
     option.MaxRetries := 0; option.MinRetryBackoff := 0;
     option.MaxRetryBackoff := 0; option.DialTimeout := 0;
     option.ReadTimeout := 0; option.WriteTimeout := 0;
     option.ContextTimeoutEnabled := false; option.PoolFIFO := false;
     option.PoolSize := 0; option.PoolTimeout := 0; option.MinIdleConns := 0;
     option.MaxIdleConns := 0; option.MaxActiveConns := 0;
     option.ConnMaxIdleTime := 0; option.ConnMaxLifetime := 0;
     option.TLSConfig := None; option.Limiter := None;
     option.readOnly := false; option.DisableIndentity := false |}.

(** [Client{DB: 2, MaxIdleConns: 5, MaxActiveConns: 7}] *)
Definition client_pool : option.Client :=
  {| option.Network := EmptyString; option.Addr := EmptyString; option.ClientName := EmptyString;
     option.Dialer := None; option.OnConnect := None; option.Protocol := 0;
     option.Username := EmptyString; option.Password := EmptyString;
     option.CredentialsProvider := None; option.DB := 2;
     option.MaxRetries := 0; option.MinRetryBackoff := 0;
     option.MaxRetryBackoff := 0; option.DialTimeout := 0;
     option.ReadTimeout := 0; option.WriteTimeout := 0;
     option.ContextTimeoutEnabled := false; option.PoolFIFO := false;
     option.PoolSize := 0; option.PoolTimeout := 0; option.MinIdleConns := 0;
     option.MaxIdleConns := 5; option.MaxActiveConns := 7;
     option.ConnMaxIdleTime := 0; option.ConnMaxLifetime := 0;
     option.TLSConfig := None; option.Limiter := None;
     option.readOnly := false; option.DisableIndentity := false |}.

(** A limiter of dynamic type [*breaker.Breaker] living at address 42. *)
Definition breaker : go.iface :=
  {| go.dyn_type := "*breaker.Breaker"; go.data := 42%positive |}.

(** [Client{Addr: "localhost:6379", Limiter: breaker}] *)
Definition client_limited : option.Client :=
  {| option.Network := EmptyString; option.Addr := "localhost:6379";
     option.ClientName := EmptyString;
     option.Dialer := None; option.OnConnect := None; option.Protocol := 0;
     option.Username := EmptyString; option.Password := EmptyString;
     option.CredentialsProvider := None; option.DB := 0;
     option.MaxRetries := 0; option.MinRetryBackoff := 0;
     option.MaxRetryBackoff := 0; option.DialTimeout := 0;
     option.ReadTimeout := 0; option.WriteTimeout := 0;
     option.ContextTimeoutEnabled := false; option.PoolFIFO := false;
     option.PoolSize := 0; option.PoolTimeout := 0; option.MinIdleConns := 0;
     option.MaxIdleConns := 0; option.MaxActiveConns := 0;
     option.ConnMaxIdleTime := 0; option.ConnMaxLifetime := 0;
     option.TLSConfig := None; option.Limiter := Some breaker;
     option.readOnly := false; option.DisableIndentity := false |}.

(** [Client{Network: "unix", Addr: "/tmp/redis.sock", Dialer: f}] with the
    closure of [f] at address 7. *)
Definition client_dialer : option.Client :=
  {| option.Network := "unix"; option.Addr := "/tmp/redis.sock";
     option.ClientName := EmptyString;
     option.Dialer := Some 7%positive; option.OnConnect := None;
     option.Protocol := 0;
     option.Username := EmptyString; option.Password := EmptyString;
     option.CredentialsProvider := None; option.DB := 0;
     option.MaxRetries := 0; option.MinRetryBackoff := 0;
     option.MaxRetryBackoff := 0; option.DialTimeout := 0;
     option.ReadTimeout := 0; option.WriteTimeout := 0;
     option.ContextTimeoutEnabled := false; option.PoolFIFO := false;
     option.PoolSize := 0; option.PoolTimeout := 0; option.MinIdleConns := 0;
     option.MaxIdleConns := 0; option.MaxActiveConns := 0;
     option.ConnMaxIdleTime := 0; option.ConnMaxLifetime := 0;
     option.TLSConfig := None; option.Limiter := None;
     option.readOnly := false; option.DisableIndentity := false |}.

(** [Client{Addr: "localhost:6379", MaxRetries: 3,
            MinRetryBackoff: 8 * time.Millisecond, PoolSize: 10}] *)
Definition client_scenario : option.Client :=
  {| option.Network := EmptyString; option.Addr := "localhost:6379";
     option.ClientName := EmptyString;
     option.Dialer := None; option.OnConnect := None; option.Protocol := 0;
     option.Username := EmptyString; option.Password := EmptyString;
     option.CredentialsProvider := None; option.DB := 0;
     option.MaxRetries := 3; option.MinRetryBackoff := 8 * time.Millisecond;
     option.MaxRetryBackoff := 0; option.DialTimeout := 0;
     option.ReadTimeout := 0; option.WriteTimeout := 0;
     option.ContextTimeoutEnabled := false; option.PoolFIFO := false;
     option.PoolSize := 10; option.PoolTimeout := 0; option.MinIdleConns := 0;
     option.MaxIdleConns := 0; option.MaxActiveConns := 0;
     option.ConnMaxIdleTime := 0; option.ConnMaxLifetime := 0;
     option.TLSConfig := None; option.Limiter := None;
     option.readOnly := false; option.DisableIndentity := false |}.

(** The [redis.Options] expected for [client_scenario]: the four fields that
    were set and the zero value everywhere else. *)
Definition options_scenario : redis.Options :=
  {| redis.Network := EmptyString; redis.Addr := "localhost:6379";
     redis.ClientName := EmptyString;
     redis.Dialer := None; redis.OnConnect := None; redis.Protocol := 0;
     redis.Username := EmptyString; redis.Password := EmptyString;
     redis.CredentialsProvider := None; redis.DB := 0;
     redis.MaxRetries := 3; redis.MinRetryBackoff := 8000000;
     redis.MaxRetryBackoff := 0; redis.DialTimeout := 0;
     redis.ReadTimeout := 0; redis.WriteTimeout := 0;
     redis.ContextTimeoutEnabled := false; redis.PoolFIFO := false;
     redis.PoolSize := 10; redis.PoolTimeout := 0; redis.MinIdleConns := 0;
     redis.MaxIdleConns := 0; redis.MaxActiveConns := 0;
     redis.ConnMaxIdleTime := 0; redis.ConnMaxLifetime := 0;
     redis.TLSConfig := None; redis.Limiter := None;
     redis.DisableIndentity := false |}.

(** [client_scenario] with [DB: 4] and [readOnly: true] in addition. *)
Definition client_scenario_replica : option.Client :=
  {| option.Network := EmptyString; option.Addr := "localhost:6379";
     option.ClientName := EmptyString;
     option.Dialer := None; option.OnConnect := None; option.Protocol := 0;
     option.Username := EmptyString; option.Password := EmptyString;
     option.CredentialsProvider := None; option.DB := 4;
     option.MaxRetries := 3; option.MinRetryBackoff := 8 * time.Millisecond;
     option.MaxRetryBackoff := 0; option.DialTimeout := 0;
     option.ReadTimeout := 0; option.WriteTimeout := 0;
     option.ContextTimeoutEnabled := false; option.PoolFIFO := false;
     option.PoolSize := 10; option.PoolTimeout := 0; option.MinIdleConns := 0;
     option.MaxIdleConns := 0; option.MaxActiveConns := 0;
     option.ConnMaxIdleTime := 0; option.ConnMaxLifetime := 0;
     option.TLSConfig := None; option.Limiter := None;
     option.readOnly := true; option.DisableIndentity := false |}.

(** Two configurations agree on every field except [DB] and [readOnly]. *)
Definition agree_except_DB_readOnly (c1 c2 : option.Client) : Prop :=
  c1.(option.Network) = c2.(option.Network) ∧
  c1.(option.Addr) = c2.(option.Addr) ∧
  c1.(option.ClientName) = c2.(option.ClientName) ∧
  c1.(option.Dialer) = c2.(option.Dialer) ∧
  c1.(option.OnConnect) = c2.(option.OnConnect) ∧
  c1.(option.Protocol) = c2.(option.Protocol) ∧
  c1.(option.Username) = c2.(option.Username) ∧
  c1.(option.Password) = c2.(option.Password) ∧
  c1.(option.CredentialsProvider) = c2.(option.CredentialsProvider) ∧
  c1.(option.MaxRetries) = c2.(option.MaxRetries) ∧
  c1.(option.MinRetryBackoff) = c2.(option.MinRetryBackoff) ∧
  c1.(option.MaxRetryBackoff) = c2.(option.MaxRetryBackoff) ∧
  c1.(option.DialTimeout) = c2.(option.DialTimeout) ∧
  c1.(option.ReadTimeout) = c2.(option.ReadTimeout) ∧
  c1.(option.WriteTimeout) = c2.(option.WriteTimeout) ∧
  c1.(option.ContextTimeoutEnabled) = c2.(option.ContextTimeoutEnabled) ∧
  c1.(option.PoolFIFO) = c2.(option.PoolFIFO) ∧
  c1.(option.PoolSize) = c2.(option.PoolSize) ∧
  c1.(option.PoolTimeout) = c2.(option.PoolTimeout) ∧
  c1.(option.MinIdleConns) = c2.(option.MinIdleConns) ∧
  c1.(option.MaxIdleConns) = c2.(option.MaxIdleConns) ∧
  c1.(option.MaxActiveConns) = c2.(option.MaxActiveConns) ∧
  c1.(option.ConnMaxIdleTime) = c2.(option.ConnMaxIdleTime) ∧
  c1.(option.ConnMaxLifetime) = c2.(option.ConnMaxLifetime) ∧
  c1.(option.TLSConfig) = c2.(option.TLSConfig) ∧
  c1.(option.Limiter) = c2.(option.Limiter) ∧
  c1.(option.DisableIndentity) = c2.(option.DisableIndentity).

(** The options [o] carry, in each of their fields, the value of the field
    of the same name of the configuration [c]. *)
Definition like_named (c : option.Client) (o : redis.Options) : Prop :=
  o.(redis.Network) = c.(option.Network) ∧
  o.(redis.Addr) = c.(option.Addr) ∧
  o.(redis.ClientName) = c.(option.ClientName) ∧
  o.(redis.Dialer) = c.(option.Dialer) ∧
  o.(redis.OnConnect) = c.(option.OnConnect) ∧
  o.(redis.Protocol) = c.(option.Protocol) ∧
  o.(redis.Username) = c.(option.Username) ∧
  o.(redis.Password) = c.(option.Password) ∧
  o.(redis.CredentialsProvider) = c.(option.CredentialsProvider) ∧
  o.(redis.DB) = c.(option.DB) ∧
  o.(redis.MaxRetries) = c.(option.MaxRetries) ∧
  o.(redis.MinRetryBackoff) = c.(option.MinRetryBackoff) ∧
  o.(redis.MaxRetryBackoff) = c.(option.MaxRetryBackoff) ∧
  o.(redis.DialTimeout) = c.(option.DialTimeout) ∧
  o.(redis.ReadTimeout) = c.(option.ReadTimeout) ∧
  o.(redis.WriteTimeout) = c.(option.WriteTimeout) ∧
  o.(redis.ContextTimeoutEnabled) = c.(option.ContextTimeoutEnabled) ∧
  o.(redis.PoolFIFO) = c.(option.PoolFIFO) ∧
  o.(redis.PoolSize) = c.(option.PoolSize) ∧
  o.(redis.PoolTimeout) = c.(option.PoolTimeout) ∧
  o.(redis.MinIdleConns) = c.(option.MinIdleConns) ∧
  o.(redis.MaxIdleConns) = c.(option.MaxIdleConns) ∧
  o.(redis.MaxActiveConns) = c.(option.MaxActiveConns) ∧
  o.(redis.ConnMaxIdleTime) = c.(option.ConnMaxIdleTime) ∧
  o.(redis.ConnMaxLifetime) = c.(option.ConnMaxLifetime) ∧
  o.(redis.TLSConfig) = c.(option.TLSConfig) ∧
  o.(redis.Limiter) = c.(option.Limiter) ∧
  o.(redis.DisableIndentity) = c.(option.DisableIndentity).

(** [Client{Addr: addr, MaxRetries: retries, MinRetryBackoff: backoff,
            PoolSize: size}]: the configuration of the scenario with any
    values in the four fields it sets, zero included. *)
Definition client_with (addr : string) (retries : Z)
    (backoff : time.Duration) (size : Z) : option.Client :=
  {| option.Network := EmptyString; option.Addr := addr;
     option.ClientName := EmptyString;
     option.Dialer := None; option.OnConnect := None; option.Protocol := 0;
     option.Username := EmptyString; option.Password := EmptyString;
     option.CredentialsProvider := None; option.DB := 0;
     option.MaxRetries := retries; option.MinRetryBackoff := backoff;
     option.MaxRetryBackoff := 0; option.DialTimeout := 0;
     option.ReadTimeout := 0; option.WriteTimeout := 0;
     option.ContextTimeoutEnabled := false; option.PoolFIFO := false;
     option.PoolSize := size; option.PoolTimeout := 0;
     option.MinIdleConns := 0;
     option.MaxIdleConns := 0; option.MaxActiveConns := 0;
     option.ConnMaxIdleTime := 0; option.ConnMaxLifetime := 0;
     option.TLSConfig := None; option.Limiter := None;
     option.readOnly := false; option.DisableIndentity := false |}.

(** [redis.Options{Addr: addr, MaxRetries: retries,
                   MinRetryBackoff: backoff, PoolSize: size}]: these four
    values and the zero value in every other field. *)
Definition options_with (addr : string) (retries : Z)
    (backoff : time.Duration) (size : Z) : redis.Options :=
  {| redis.Network := EmptyString; redis.Addr := addr;
     redis.ClientName := EmptyString;
     redis.Dialer := None; redis.OnConnect := None; redis.Protocol := 0;
     redis.Username := EmptyString; redis.Password := EmptyString;
     redis.CredentialsProvider := None; redis.DB := 0;
     redis.MaxRetries := retries; redis.MinRetryBackoff := backoff;
     redis.MaxRetryBackoff := 0; redis.DialTimeout := 0;
     redis.ReadTimeout := 0; redis.WriteTimeout := 0;
     redis.ContextTimeoutEnabled := false; redis.PoolFIFO := false;
     redis.PoolSize := size; redis.PoolTimeout := 0; redis.MinIdleConns := 0;
     redis.MaxIdleConns := 0; redis.MaxActiveConns := 0;
     redis.ConnMaxIdleTime := 0; redis.ConnMaxLifetime := 0;
     redis.TLSConfig := None; redis.Limiter := None;
     redis.DisableIndentity := false |}.

(** ** Allocation *)

Lemma fresh_unallocated (h : heap) : h !! fresh (dom h) = None.
Proof. apply not_elem_of_dom, is_fresh. Qed.

Lemma new_Options_spec (o : redis.Options) (h : heap) :
  ∃ l, new_Options o h = (Some l, <[l := o]> h) ∧ h !! l = None.
Proof. exists (fresh (dom h)). split; [done | by apply fresh_unallocated]. Qed.

Lemma ParseToRedisOptions_spec (c : option.Client) (h : heap) :
  ∃ l, option.ParseToRedisOptions c h
         = (Some l, <[l := option.Options_literal c]> h)
       ∧ h !! l = None.
Proof. apply new_Options_spec. Qed.

Lemma returned_literal (c : option.Client) (h : heap) :
  returned c h = Some (option.Options_literal c).
Proof.
  unfold returned. destruct (ParseToRedisOptions_spec c h) as (l & -> & _).
  simpl. apply lookup_insert_eq.
Qed.

(** The model runs: in the empty store the first object is allocated at
    address 1 and a second call allocates at address 2. *)
Example ParseToRedisOptions_run :
  (option.ParseToRedisOptions client_pool ∅).1 = Some 1%positive
  ∧ (option.ParseToRedisOptions client_pool
       (option.ParseToRedisOptions client_scenario ∅).2).1 = Some 2%positive
  ∧ redis.DB <$> returned client_pool ∅ = Some 5.
Proof. vm_compute. done. Qed.

(** An earlier object is not touched by a later call. *)
Lemma ParseToRedisOptions_frame (c : option.Client) (h : heap) (l : go.loc) :
  is_Some (h !! l) →
  (option.ParseToRedisOptions c h).2 !! l = h !! l.
Proof.
  intros Hl. destruct (ParseToRedisOptions_spec c h) as (l' & -> & Hfresh).
  simpl. apply lookup_insert_ne. intros ->. rewrite Hfresh in Hl.
  by destruct Hl.
Qed.

(** ** The mapping *)

(** C4.  The method is defined on every configuration and every store: it
    returns a non-nil pointer to a newly allocated [redis.Options], which
    holds the composite literal, and it leaves every other object as it was;
    there is no error result.  On the zero configuration it returns the zero
    options. *)
Theorem ParseToRedisOptions_total :
  (∀ (c : option.Client) (h : heap),
      ∃ (l : go.loc) (h' : heap) (o : redis.Options),
        option.ParseToRedisOptions c h = (Some l, h')
        ∧ h !! l = None
        ∧ deref h' (Some l) = Some o
        ∧ ∀ l', l' ≠ l → h' !! l' = h !! l')
  ∧ (∀ h : heap, returned option.zero h = Some redis.zero).
Proof.
  split.
  - intros c h. destruct (ParseToRedisOptions_spec c h) as (l & Heq & Hfresh).
    exists l, (<[l := option.Options_literal c]> h), (option.Options_literal c).
    split_and!; [done | done | apply lookup_insert_eq |].
    intros l' Hne. by apply lookup_insert_ne.
  - intros h. by rewrite returned_literal.
Qed.

(** C5.  The value returned depends on the configuration only: whatever the
    store, a call on [c] returns the same [redis.Options] value; and after
    two calls in a row on the same [c] both pointers are valid and hold
    equal values. *)
Theorem ParseToRedisOptions_deterministic :
  ∀ (c : option.Client) (h h0 : heap),
    returned c h = returned c h0
    ∧ ∃ (p1 p2 : go.pointer) (h1 h2 : heap) (o : redis.Options),
        option.ParseToRedisOptions c h = (p1, h1)
        ∧ option.ParseToRedisOptions c h1 = (p2, h2)
        ∧ deref h2 p1 = Some o
        ∧ deref h2 p2 = Some o.
Proof.
  intros c h h0. split; [by rewrite !returned_literal |].
  destruct (ParseToRedisOptions_spec c h) as (l1 & Heq1 & Hf1).
  set (h1 := <[l1 := option.Options_literal c]> h) in *.
  destruct (ParseToRedisOptions_spec c h1) as (l2 & Heq2 & Hf2).
  exists (Some l1), (Some l2), h1, (<[l2 := option.Options_literal c]> h1),
    (option.Options_literal c).
  split_and!; [done | done | | apply lookup_insert_eq].
  simpl. rewrite lookup_insert_ne.
  - apply lookup_insert_eq.
  - intros ->. subst h1. by rewrite lookup_insert_eq in Hf2.
Qed.

(** Two calls in a row return different pointers: the equality of C5 is an
    equality of the values pointed to. *)
Lemma ParseToRedisOptions_new_pointer (c : option.Client) (h : heap) :
  (option.ParseToRedisOptions c (option.ParseToRedisOptions c h).2).1
  ≠ (option.ParseToRedisOptions c h).1.
Proof.
  destruct (ParseToRedisOptions_spec c h) as (l1 & -> & _).
  cbn [fst snd].
  destruct (ParseToRedisOptions_spec c (<[l1 := option.Options_literal c]> h))
    as (l2 & -> & Hf2).
  cbn [fst snd]. intros [= ->]. by rewrite lookup_insert_eq in Hf2.
Qed.

(** X1.  Every field of the options other than [DB] and [MaxIdleConns] is
    the like-named field of the configuration. *)
Lemma ParseToRedisOptions_like_named (c : option.Client) (h : heap) :
  ∃ o : redis.Options,
    returned c h = Some o
    ∧ o.(redis.Network) = c.(option.Network)
    ∧ o.(redis.Addr) = c.(option.Addr)
    ∧ o.(redis.ClientName) = c.(option.ClientName)
    ∧ o.(redis.Dialer) = c.(option.Dialer)
    ∧ o.(redis.OnConnect) = c.(option.OnConnect)
    ∧ o.(redis.Protocol) = c.(option.Protocol)
    ∧ o.(redis.Username) = c.(option.Username)
    ∧ o.(redis.Password) = c.(option.Password)
    ∧ o.(redis.CredentialsProvider) = c.(option.CredentialsProvider)
    ∧ o.(redis.MaxRetries) = c.(option.MaxRetries)
    ∧ o.(redis.MinRetryBackoff) = c.(option.MinRetryBackoff)
    ∧ o.(redis.MaxRetryBackoff) = c.(option.MaxRetryBackoff)
    ∧ o.(redis.DialTimeout) = c.(option.DialTimeout)
    ∧ o.(redis.ReadTimeout) = c.(option.ReadTimeout)
    ∧ o.(redis.WriteTimeout) = c.(option.WriteTimeout)
    ∧ o.(redis.ContextTimeoutEnabled) = c.(option.ContextTimeoutEnabled)
    ∧ o.(redis.PoolFIFO) = c.(option.PoolFIFO)
    ∧ o.(redis.PoolSize) = c.(option.PoolSize)
    ∧ o.(redis.PoolTimeout) = c.(option.PoolTimeout)
    ∧ o.(redis.MinIdleConns) = c.(option.MinIdleConns)
    ∧ o.(redis.MaxActiveConns) = c.(option.MaxActiveConns)
    ∧ o.(redis.ConnMaxIdleTime) = c.(option.ConnMaxIdleTime)
    ∧ o.(redis.ConnMaxLifetime) = c.(option.ConnMaxLifetime)
    ∧ o.(redis.TLSConfig) = c.(option.TLSConfig)
    ∧ o.(redis.Limiter) = c.(option.Limiter)
    ∧ o.(redis.DisableIndentity) = c.(option.DisableIndentity).
Proof.
  exists (option.Options_literal c). split; [apply returned_literal |].
  repeat split.
Qed.

(** C1.  The like-named mapping fails on the code.  At [Client{DB: 1}] the
    options returned are the zero options: their [DB] is 0, the value of the
    configuration's [MaxIdleConns], and the configuration's [DB = 1] appears
    nowhere in them.  At [Client{DB: 2, MaxIdleConns: 5, MaxActiveConns: 7}]
    the options have [DB = 5] and [MaxIdleConns = 7]. *)
Theorem ParseToRedisOptions_not_like_named :
  (∃ o : redis.Options,
      returned client_DB1 ∅ = Some o
      ∧ o = redis.zero
      ∧ client_DB1.(option.DB) = 1
      ∧ o.(redis.DB) ≠ client_DB1.(option.DB))
  ∧ (∃ o : redis.Options,
        returned client_pool ∅ = Some o
        ∧ o.(redis.DB) = 5 ∧ client_pool.(option.DB) = 2
        ∧ o.(redis.MaxIdleConns) = 7
        ∧ client_pool.(option.MaxIdleConns) = 5).
Proof.
  split.
  - exists redis.zero. split; [by rewrite returned_literal | done].
  - exists (option.Options_literal client_pool).
    split; [by rewrite returned_literal | done].
Qed.

(** C2.  For every configuration the [DB] of the options returned is the
    configuration's [MaxIdleConns] and their [MaxIdleConns] is the
    configuration's [MaxActiveConns]; at [client_pool] neither is the value
    of the like-named field. *)
Theorem ParseToRedisOptions_cross_mapping :
  (∀ (c : option.Client) (h : heap),
      ∃ o : redis.Options,
        returned c h = Some o
        ∧ o.(redis.DB) = c.(option.MaxIdleConns)
        ∧ o.(redis.MaxIdleConns) = c.(option.MaxActiveConns))
  ∧ (∃ o : redis.Options,
        returned client_pool ∅ = Some o
        ∧ o.(redis.DB) ≠ client_pool.(option.DB)
        ∧ o.(redis.MaxIdleConns) ≠ client_pool.(option.MaxIdleConns)).
Proof.
  split.
  - intros c h. exists (option.Options_literal c).
    by rewrite returned_literal.
  - exists (option.Options_literal client_pool).
    by rewrite returned_literal.
Qed.

(** C3.  The three timeouts, the two retry backoffs and the retry count of
    the options returned are the values of the configuration, whatever they
    are (so 0, -1 and -2 too). *)
Theorem ParseToRedisOptions_sentinels :
  ∀ (c : option.Client) (h : heap),
    ∃ o : redis.Options,
      returned c h = Some o
      ∧ o.(redis.DialTimeout) = c.(option.DialTimeout)
      ∧ o.(redis.ReadTimeout) = c.(option.ReadTimeout)
      ∧ o.(redis.WriteTimeout) = c.(option.WriteTimeout)
      ∧ o.(redis.MinRetryBackoff) = c.(option.MinRetryBackoff)
      ∧ o.(redis.MaxRetryBackoff) = c.(option.MaxRetryBackoff)
      ∧ o.(redis.MaxRetries) = c.(option.MaxRetries).
Proof.
  intros c h. exists (option.Options_literal c).
  by rewrite returned_literal.
Qed.

(** C6.  When the configuration's [Limiter] is not nil, the [Limiter] of the
    options returned is the same interface value: same dynamic type, same
    address. *)
Theorem ParseToRedisOptions_Limiter (c : option.Client) (h : heap)
    (lim : go.iface) :
  c.(option.Limiter) = Some lim →
  ∃ o : redis.Options,
    returned c h = Some o ∧ o.(redis.Limiter) = Some lim.
Proof.
  intros Hlim. exists (option.Options_literal c).
  by rewrite returned_literal.
Qed.

Lemma ParseToRedisOptions_Limiter_witness :
  client_limited.(option.Limiter) = Some breaker
  ∧ ∃ o : redis.Options,
      returned client_limited ∅ = Some o ∧ o.(redis.Limiter) = Some breaker.
Proof.
  split; [reflexivity |].
  apply (ParseToRedisOptions_Limiter client_limited ∅ breaker). reflexivity.
Defined.

(** C7.  When [Dialer], [Network] and [Addr] are all set, the options
    returned carry the three of them as they are. *)
Theorem ParseToRedisOptions_Dialer_Network_Addr (c : option.Client)
    (h : heap) :
  is_Some c.(option.Dialer) →
  c.(option.Network) ≠ EmptyString →
  c.(option.Addr) ≠ EmptyString →
  ∃ o : redis.Options,
    returned c h = Some o
    ∧ o.(redis.Dialer) = c.(option.Dialer)
    ∧ o.(redis.Network) = c.(option.Network)
    ∧ o.(redis.Addr) = c.(option.Addr).
Proof.
  intros _ _ _. exists (option.Options_literal c).
  by rewrite returned_literal.
Qed.

Lemma ParseToRedisOptions_Dialer_Network_Addr_witness :
  is_Some client_dialer.(option.Dialer)
  ∧ client_dialer.(option.Network) ≠ EmptyString
  ∧ client_dialer.(option.Addr) ≠ EmptyString
  ∧ ∃ o : redis.Options,
      returned client_dialer ∅ = Some o
      ∧ o.(redis.Dialer) = Some 7%positive
      ∧ o.(redis.Network) = "unix"%string
      ∧ o.(redis.Addr) = "/tmp/redis.sock"%string.
Proof.
  split; [by eexists |]. split; [discriminate |]. split; [discriminate |].
  apply (ParseToRedisOptions_Dialer_Network_Addr client_dialer ∅).
  - by eexists.
  - discriminate.
  - discriminate.
Defined.

(** C8.  No default is put in.  For [Client{Addr: "localhost:6379",
    MaxRetries: 3, MinRetryBackoff: 8ms, PoolSize: 10}] the options returned
    have these four values and the zero value in every other field.  The
    same holds whatever the four values are, so a zero [MaxRetries],
    [MinRetryBackoff] or [PoolSize] comes out as zero and not as the
    documented 3 retries, 8 milliseconds or 10 connections, and the fields
    left unset come out as zero and not as the documented 5 seconds and the
    like.  The zero configuration gives the zero options. *)
Theorem ParseToRedisOptions_scenario :
  (∀ h : heap, returned client_scenario h = Some options_scenario)
  ∧ (∀ (addr : string) (retries : Z) (backoff : time.Duration) (size : Z)
       (h : heap),
        returned (client_with addr retries backoff size) h
        = Some (options_with addr retries backoff size))
  ∧ (∀ h : heap,
        ∃ o : redis.Options,
          returned option.zero h = Some o
          ∧ o = redis.zero
          ∧ o.(redis.MaxRetries) = 0
          ∧ o.(redis.MinRetryBackoff) = 0
          ∧ o.(redis.MaxRetryBackoff) = 0
          ∧ o.(redis.DialTimeout) = 0
          ∧ o.(redis.ReadTimeout) = 0
          ∧ o.(redis.WriteTimeout) = 0
          ∧ o.(redis.PoolSize) = 0
          ∧ o.(redis.PoolTimeout) = 0
          ∧ o.(redis.Protocol) = 0
          ∧ o.(redis.ConnMaxIdleTime) = 0
          ∧ o.(redis.Network) = EmptyString).
Proof.
  split_and!.
  - intros h. by rewrite returned_literal.
  - intros addr retries backoff size h. by rewrite returned_literal.
  - intros h. exists redis.zero. split; [by rewrite returned_literal |].
    repeat split.
Qed.

(** C9.  Two configurations that agree on every field except [DB] and
    [readOnly] give the same result in the same store. *)
Theorem ParseToRedisOptions_noninterference (c1 c2 : option.Client)
    (h : heap) :
  agree_except_DB_readOnly c1 c2 →
  option.ParseToRedisOptions c1 h = option.ParseToRedisOptions c2 h.
Proof.
  unfold agree_except_DB_readOnly. intros H.
  unfold option.ParseToRedisOptions. f_equal.
  destruct c1, c2; simpl in *. unfold option.Options_literal; simpl.
  destruct_and!. by subst.
Qed.

Lemma ParseToRedisOptions_noninterference_witness :
  client_scenario.(option.DB) ≠ client_scenario_replica.(option.DB)
  ∧ client_scenario.(option.readOnly)
    ≠ client_scenario_replica.(option.readOnly)
  ∧ option.ParseToRedisOptions client_scenario ∅
    = option.ParseToRedisOptions client_scenario_replica ∅.
Proof.
  split; [discriminate |]. split; [discriminate |].
  apply (ParseToRedisOptions_noninterference
           client_scenario client_scenario_replica ∅).
  unfold agree_except_DB_readOnly. repeat split; reflexivity.
Defined.

(** C10.  In the options returned [MaxIdleConns] equals [MaxActiveConns]:
    both are the configuration's [MaxActiveConns]. *)
Theorem ParseToRedisOptions_MaxIdleConns_MaxActiveConns :
  ∀ (c : option.Client) (h : heap),
    ∃ o : redis.Options,
      returned c h = Some o
      ∧ o.(redis.MaxIdleConns) = o.(redis.MaxActiveConns)
      ∧ o.(redis.MaxActiveConns) = c.(option.MaxActiveConns).
Proof.
  intros c h. exists (option.Options_literal c).
  by rewrite returned_literal.
Qed.

(** ** What the mapping keeps and what it loses *)

(** X2.  The values returned for two configurations are equal exactly when
    the configurations agree on every field other than [DB] and [readOnly]:
    these two are the only fields of the configuration that the options do
    not record. *)
Theorem ParseToRedisOptions_equal_iff_agree :
  ∀ (c1 c2 : option.Client) (h1 h2 : heap),
    returned c1 h1 = returned c2 h2 ↔ agree_except_DB_readOnly c1 c2.
Proof.
  intros c1 c2 h1 h2. rewrite !returned_literal. split.
  - intros [= ?]. destruct c1, c2.
    unfold option.Options_literal in *; simpl in *.
    simplify_eq. unfold agree_except_DB_readOnly; simpl. repeat split.
  - unfold agree_except_DB_readOnly. intros H. f_equal.
    destruct c1, c2; simpl in *. unfold option.Options_literal; simpl.
    destruct_and!. by subst.
Qed.

(** X3.  The options returned are like-named in all their fields exactly
    when the configuration has [DB = MaxIdleConns = MaxActiveConns]. *)
Theorem ParseToRedisOptions_like_named_iff :
  ∀ (c : option.Client) (h : heap),
    (∃ o : redis.Options, returned c h = Some o ∧ like_named c o)
    ↔ c.(option.DB) = c.(option.MaxIdleConns)
      ∧ c.(option.MaxIdleConns) = c.(option.MaxActiveConns).
Proof.
  intros c h. rewrite returned_literal. split.
  - intros (o & [= <-] & Hl). unfold like_named in Hl. simpl in Hl.
    destruct_and!. split; congruence.
  - intros [HDB Hidle]. exists (option.Options_literal c).
    split; [done |]. unfold like_named; simpl.
    rewrite HDB, Hidle. repeat split.
Qed.

(** X4.  A call on [c1] followed by a call on [c2] returns two different
    non-nil pointers, both to addresses that were free before the first
    call.  In the final store each of them holds the options of its own
    configuration, every other address holds what it held before the first
    call, and the store has exactly two objects more: neither call writes
    to an object that was there already, and the second call does not write
    to the object of the first. *)
Theorem ParseToRedisOptions_twice :
  ∀ (c1 c2 : option.Client) (h : heap),
    ∃ (l1 l2 : go.loc) (h1 h2 : heap),
      option.ParseToRedisOptions c1 h = (Some l1, h1)
      ∧ option.ParseToRedisOptions c2 h1 = (Some l2, h2)
      ∧ h !! l1 = None
      ∧ h !! l2 = None
      ∧ h1 !! l2 = None
      ∧ l1 ≠ l2
      ∧ deref h2 (Some l1) = Some (option.Options_literal c1)
      ∧ deref h2 (Some l2) = Some (option.Options_literal c2)
      ∧ (∀ l : go.loc, l ≠ l1 → l ≠ l2 → h2 !! l = h !! l)
      ∧ (∀ (l : go.loc) (o : redis.Options),
            h !! l = Some o → h1 !! l = Some o ∧ h2 !! l = Some o)
      ∧ dom h2 = {[l1; l2]} ∪ dom h
      ∧ size h2 = S (S (size h)).
Proof.
  intros c1 c2 h.
  destruct (ParseToRedisOptions_spec c1 h) as (l1 & Heq1 & Hf1).
  set (h1 := <[l1 := option.Options_literal c1]> h) in *.
  destruct (ParseToRedisOptions_spec c2 h1) as (l2 & Heq2 & Hf2).
  assert (l1 ≠ l2) as Hne.
  { intros ->. subst h1. by rewrite lookup_insert_eq in Hf2. }
  assert (h !! l2 = None) as Hf2'.
  { subst h1. by rewrite lookup_insert_ne in Hf2. }
  exists l1, l2, h1, (<[l2 := option.Options_literal c2]> h1).
  split_and!; [done | done | done | done | done | done | |
               apply lookup_insert_eq | | | |].
  - simpl. rewrite lookup_insert_ne by done. apply lookup_insert_eq.
  - intros l Hl1 Hl2. subst h1. by rewrite !lookup_insert_ne.
  - intros l o Hl.
    assert (l ≠ l1) by (intros ->; congruence).
    assert (l ≠ l2) by (intros ->; congruence).
    subst h1. by rewrite !lookup_insert_ne.
  - subst h1. rewrite !dom_insert_L. apply set_eq. intros x.
    rewrite !elem_of_union, !elem_of_singleton. tauto.
  - rewrite map_size_insert_None by done. subst h1.
    by rewrite map_size_insert_None.
Qed.
